(** * next-super-layout: layout composition and data scoping

    A shallow embedding of [src/layout.tsx] (createLayout, combineLayouts,
    RenderLayout, LayoutProvider) together with the small part of the
    JavaScript and React semantics the module relies on, and the
    properties of the specification stated over it. *)

From Stdlib Require Import ZArith NArith String Ascii DecimalString Permutation Lia.
From stdpp Require Import gmap strings list fin_maps sorting.

Set Warnings "-register-all".

(** ** JavaScript values *)

(** Data that travels through props and contexts.  A string is a sequence
    of code units, one [ascii] each. *)
Inductive value : Type :=
| VUndefined
| VNull
| VBool (b : bool)
| VNum (n : Z)
| VStr (s : string)
| VArr (items : list value)
| VObj (fields : gmap string value).

(** A plain object seen as its own enumerable properties. *)
Abbreviation obj := (gmap string value).

#[global] Instance value_inhabited : Inhabited value := populate VUndefined.

(** [v == null] *)
Definition nullish (v : value) : bool :=
  match v with
  | VUndefined | VNull => true
  | _ => false
  end.

(** [a ?? b] *)
Definition coalesce (a b : value) : value := if nullish a then b else a.
Infix "??" := coalesce (at level 45, left associativity).

(** [Boolean(v)] *)
Definition truthy (v : value) : bool :=
  match v with
  | VUndefined | VNull => false
  | VBool b => b
  | VNum n => negb (n =? 0)%Z
  | VStr s => negb (String.eqb s "")
  | VArr _ | VObj _ => true
  end.

(** *** Array indices as property keys *)

Definition index_key (i : N) : string := NilEmpty.string_of_uint (N.to_uint i).

(** A key is an array index when it is the canonical decimal form of an
    integer below [2^32 - 1]. *)
Definition array_index (k : string) : option N :=
  match NilEmpty.uint_of_string k with
  | Some u =>
      let n := N.of_uint u in
      if String.eqb (index_key n) k && (n <? 4294967295)%N
      then Some n else None
  | None => None
  end.

Definition string_units (s : string) : list value :=
  (λ c, VStr (String c EmptyString)) <$> list_ascii_of_string s.

Definition indexed (items : list value) : obj :=
  list_to_map (imap (λ i x, (index_key (N.of_nat i), x)) items).

(** *** Property access *)

(** Own property [v[k]] of a value that is neither [null] nor [undefined].
    Properties inherited from the built-in prototypes are functions and lie
    outside [value]; the keys this module reads from data are ["props"] and
    the ["__layout:"] keys, none of which the prototypes define. *)
Definition own_prop (v : value) (k : string) : value :=
  match v with
  | VObj m => m !!! k
  | VArr items =>
      match array_index k with
      | Some i => default VUndefined (items !! N.to_nat i)
      | None => if String.eqb k "length" then VNum (Z.of_nat (length items)) else VUndefined
      end
  | VStr s =>
      match array_index k with
      | Some i => default VUndefined (string_units s !! N.to_nat i)
      | None => if String.eqb k "length" then VNum (Z.of_nat (String.length s)) else VUndefined
      end
  | _ => VUndefined
  end.

(** [v?.[k]] *)
Definition opt_member (v : value) (k : string) : value :=
  if nullish v then VUndefined else own_prop v k.

(** [{...v}]: the own enumerable properties copied by a spread. *)
Definition spread (v : value) : obj :=
  match v with
  | VObj m => m
  | VArr items => indexed items
  | VStr s => indexed (string_units s)
  | _ => ∅
  end.

(** [Object.assign(target, ...sources)]: later sources win. *)
Definition Object_assign (target : obj) (sources : list value) : obj :=
  foldl (λ acc s, spread s ∪ acc) target sources.

(** ** Errors and completions *)

Inductive ErrorCode : Type :=
| LAYOUT_PROVIDER_NOT_IMPLEMENTED
| DATA_UNAVAILABLE
| COMBINED_LAYOUT_NAME_CONFLICT.

Record ErrorConfig : Type := {
  errorContext : string;
  message : string;
  location : option string;
  layoutName : option string;
}.

Inductive exn : Type :=
| LayoutError (code : ErrorCode) (config : ErrorConfig)
| TypeError (what : string)
| ReferenceError (what : string)
| Rejection (reason : value).

(** Modelled from the spec: [createError] of [./exceptions], which is not
    part of the sources at hand.  The specification names three error
    kinds, LayoutProviderMissing, DataUnavailable (carrying the layout name
    and the current location) and CombinedLayoutNameConflict; the error
    value keeps the code and the configuration it was created from. *)
Definition createError (code : ErrorCode) (config : ErrorConfig) : exn :=
  LayoutError code config.

(** How a call ends: with a value, with an exception (a rejected promise
    for asynchronous code), or without an answer (a promise that never
    settles, a render that exceeds its budget). *)
Inductive completion (A : Type) : Type :=
| Normal (a : A)
| Throw (e : exn)
| Unfinished.
Arguments Normal {A} a.
Arguments Throw {A} e.
Arguments Unfinished {A}.

#[global] Instance completion_ret : MRet completion := λ A a, Normal a.
#[global] Instance completion_bind : MBind completion := λ A B f c,
  match c with
  | Normal a => f a
  | Throw e => Throw e
  | Unfinished => Unfinished
  end.

(** [v[k]], which throws on [null] and [undefined]. *)
Definition member (v : value) (k : string) : completion value :=
  if nullish v
  then Throw (TypeError ("Cannot read properties of null or undefined, reading " +:+ k))
  else Normal (own_prop v k).

(** ** Identifiers *)

(** The names in scope inside [createLayout]: its parameter and its two
    constants, the imports of the module (lines 1-5; the type imports are
    erased) and its top-level declarations.  The global scope of the host
    adds the standard globals, none of which the names below shadow and
    none of which is called [LayoutPageContext]. *)
Definition scope : list string :=
  [ "options"; "layoutKey"; "isCombinedLayout";
    "useRouter"; "React"; "createContext"; "useContext"; "useMemo"; "createError";
    "LayoutProviderContext"; "LayoutDataContext"; "createLayout"; "defaultGetProps";
    "getOptionsFromLayout"; "combineLayouts"; "RenderLayout"; "LayoutProvider" ].

(** Reading an identifier: a name that nothing binds throws. *)
Definition identifier (x : string) : completion unit :=
  if bool_decide (x ∈ scope)
  then Normal ()
  else Throw (ReferenceError (x +:+ " is not defined")).

(** ** The React fragment the module uses *)

Record Router : Type := { pathname : string }.

(** What the hooks of a component read at its place in the tree: the two
    contexts of the module and the router. *)
Record Ambient : Type := {
  LayoutProviderContext : bool;
  LayoutDataContext : obj;
  router : Router;
}.

Definition useContext {A : Type} (context : Ambient → A) (env : Ambient) : A := context env.
Definition useRouter (env : Ambient) : Router := router env.
Definition useMemo {A : Type} (factory : unit → A) : A := factory ().

(** [createContext(false)] and [createContext({})]: what a reader sees
    when no provider is above it. *)
Definition root_ambient (r : Router) : Ambient :=
  {| LayoutProviderContext := false; LayoutDataContext := ∅; router := r |}.

(** React elements.  A component element is the component applied to its
    props, waiting to be called with the hooks of its place in the tree. *)
Inductive element : Type :=
| EText (s : string)
| EHost (tag : string) (attrs : obj) (children : list element)
| EFragment (children : list element)
| EComponent (body : Ambient → completion element)
| EProviderFlag (v : bool) (child : element)
| EProviderData (v : obj) (child : element).

(** Function components over props of type [P]. *)
Definition FC (P : Type) : Type := P → Ambient → completion element.

(** [<C {...props} />] *)
Definition jsx {P : Type} (C : FC P) (props : P) : element := EComponent (C props).

(** Rendered output: fragments and providers leave no node of their own. *)
Inductive dom : Type :=
| DText (s : string)
| DElem (tag : string) (attrs : obj) (children : list dom).

Definition with_flag (v : bool) (env : Ambient) : Ambient :=
  {| LayoutProviderContext := v;
     LayoutDataContext := LayoutDataContext env;
     router := router env |}.

Definition with_data (v : obj) (env : Ambient) : Ambient :=
  {| LayoutProviderContext := LayoutProviderContext env;
     LayoutDataContext := v;
     router := router env |}.

(** Rendering walks the element tree depth first; a provider changes what
    the subtree below it reads; [fuel] bounds the number of nested
    component calls. *)
Fixpoint render (fuel : nat) : Ambient → element → completion (list dom) :=
  fix go (env : Ambient) (e : element) {struct e} : completion (list dom) :=
    let go_all := fix go_all (es : list element) : completion (list dom) :=
      match es with
      | [] => Normal []
      | e' :: es' => ds ← go env e'; ds' ← go_all es'; Normal (ds ++ ds')
      end in
    match e with
    | EText s => Normal [DText s]
    | EHost tag attrs children => kids ← go_all children; Normal [DElem tag attrs kids]
    | EFragment children => go_all children
    | EComponent body =>
        match fuel with
        | 0 => Unfinished
        | S fuel' => e' ← body env; render fuel' env e'
        end
    | EProviderFlag v child => go (with_flag v env) child
    | EProviderData v child => go (with_data v env) child
    end.

(** Rendering a list of children, left to right. *)
Fixpoint render_all (fuel : nat) (env : Ambient) (es : list element)
    : completion (list dom) :=
  match es with
  | [] => Normal []
  | e :: es' => ds ← render fuel env e; ds' ← render_all fuel env es'; Normal (ds ++ ds')
  end.

(** ** Layouts *)

(** A data-fetching function: the fetch context in, a promise out. *)
Definition fetch : Type := value → completion value.

Record CreateLayoutOptions : Type := {
  name : string;
  getLayout : option (element → value → completion element);
  getData : option fetch;
}.

(** A page component, with the [getLayout] that [wrapPage] attaches to it. *)
Module PageWithLayout.
Record t : Type := {
  fn : FC obj;
  getLayout : option (FC obj → obj → Ambient → completion element);
}.
End PageWithLayout.

Record AppProps : Type := {
  Component : PageWithLayout.t;
  pageProps : obj;
}.

(** The object that the [return] of [createLayout] describes.  Next to the
    options, [__layoutOptions] is to hold the value of [LayoutPageContext];
    [createLayout] reads that identifier before the object exists, and
    nothing reads the entry from the object. *)
Record Layout : Type := {
  __layoutOptions : CreateLayoutOptions;
  wrapPage : FC obj → PageWithLayout.t;
  wrapGetStaticProps : option fetch → fetch;
  wrapGetServerSideProps : option fetch → fetch;
  useData : option (Ambient → completion value);
}.

Definition layoutKey (name : string) : string := "__layout:" +:+ name.

Definition isCombinedLayout (name : string) : bool := String.prefix "__combined" name.

Definition defaultGetProps : fetch :=
  λ _, Normal (VObj {[ "props" := VObj ∅ ]}).

(** [f?.(ctx)] *)
Definition opt_call (f : option fetch) (ctx : value) : completion value :=
  match f with
  | Some g => g ctx
  | None => Normal VUndefined
  end.

Definition newline : string := String "010"%char EmptyString.

Definition provider_message : string :=
  "Before layouts can be utilized, you must wrap your Next.js `_app` with <LayoutProvider>".

Definition unavailable_message : string :=
  "Data for this layout unavailable for one of these reasons:" +:+ newline +:+
  "  - getData() is not defined for this layout." +:+ newline +:+
  "  - This page was not wrapped with wrapPage()." +:+ newline +:+
  "  - getStaticProps() or getServerSideProps() is not wrapped for this layout." +:+ newline +:+
  "  - useData() may have been called within getLayout()." +:+ newline +:+
  "    Use the second `data` parameter given to getLayout() instead.".

(** Line 59 builds [__layoutOptions] from the options and from the value
    of the identifier [LayoutPageContext], which is read first of all that
    the returned object is made of. *)
Definition createLayout (options : CreateLayoutOptions) : completion Layout :=
  let layoutKey := layoutKey (name options) in
  let isCombinedLayout := isCombinedLayout (name options) in
  _ ← identifier "LayoutPageContext";
  Normal
  {| __layoutOptions := options;

     wrapPage := λ Page,
       {| PageWithLayout.fn := λ props env,
            if negb (useContext LayoutProviderContext env)
            then Throw (createError LAYOUT_PROVIDER_NOT_IMPLEMENTED
                          {| errorContext := "wrapPage";
                             message := provider_message;
                             location := None;
                             layoutName := None |})
            else Normal (jsx Page props);

          PageWithLayout.getLayout := Some (λ Component pageProps env,
            let layoutProps := pageProps !!! layoutKey in
            let rest := delete layoutKey pageProps in
            let currCtx := useContext LayoutDataContext env in
            let ctx := useMemo (λ _,
              if isCombinedLayout
              then spread layoutProps ∪ currCtx
              else <[layoutKey := layoutProps]> currCtx) in
            content ← match getLayout options with
                      | Some getLayout => getLayout (jsx Component rest) layoutProps
                      | None => Normal (jsx Component rest)
                      end;
            Normal (EProviderData ctx content)) |};

     wrapGetStaticProps := λ wrapped ctx,
       let wrappedGetStaticProps := default defaultGetProps wrapped in
       awaited ← wrappedGetStaticProps ctx;
       let staticProps := awaited ?? VObj ∅ in
       layoutStaticProps ← opt_call (getData options) ctx;
       props ← member staticProps "props";
       Normal (VObj (<["props" :=
                 VObj (<[layoutKey :=
                          opt_member layoutStaticProps layoutKey ?? layoutStaticProps ?? VNull]>
                         (spread (props ?? VObj ∅)))]>
               (spread staticProps)));

     wrapGetServerSideProps := λ wrapped ctx,
       let wrappedGetServerSideProps := default defaultGetProps wrapped in
       awaited ← wrappedGetServerSideProps ctx;
       let serverSideProps := awaited ?? VObj ∅ in
       layoutStaticProps ← opt_call (getData options) ctx;
       props ← member serverSideProps "props";
       Normal (VObj (<["props" :=
                 VObj (<[layoutKey :=
                          opt_member layoutStaticProps layoutKey ?? layoutStaticProps ?? VNull]>
                         (spread (props ?? VObj ∅)))]>
               (spread serverSideProps)));

     useData := Some (λ env,
       let ctx := useContext LayoutDataContext env in
       let pathname := pathname (useRouter env) in
       if nullish (ctx !!! layoutKey)
       then Throw (createError DATA_UNAVAILABLE
                     {| errorContext := "useData";
                        location := Some pathname;
                        layoutName := Some (name options);
                        message := unavailable_message |})
       else Normal (ctx !!! layoutKey)) |}.

Definition getOptionsFromLayout (layout : Layout) : CreateLayoutOptions :=
  __layoutOptions layout.

(** ** Counting names in a plain object *)

(** The entries of the [uniq] record of [combineLayouts], created by [{}]:
    a number, or the text that [+] produces once one operand is no
    number. *)
Inductive tally : Type :=
| Count (n : nat)
| Text.

(** The properties every object created by [{}] inherits from
    [Object.prototype]. *)
Definition Object_prototype_keys : list string :=
  [ "constructor"; "__defineGetter__"; "__defineSetter__"; "hasOwnProperty";
    "__lookupGetter__"; "__lookupSetter__"; "isPrototypeOf";
    "propertyIsEnumerable"; "toString"; "valueOf"; "__proto__";
    "toLocaleString" ].

Definition inherited (k : string) : bool := bool_decide (k ∈ Object_prototype_keys).

(** Own properties in insertion order. *)
Definition record : Type := list (string * tally).

Fixpoint own (a : record) (k : string) : option tally :=
  match a with
  | [] => None
  | (k', t) :: a' => if String.eqb k' k then Some t else own a' k
  end.

(** [a[k] = t]: an existing property keeps its place, a new one goes last;
    the [__proto__] setter drops anything that is no object. *)
Fixpoint assign (a : record) (k : string) (t : tally) : record :=
  match a with
  | [] => [(k, t)]
  | (k', t') :: a' => if String.eqb k' k then (k', t) :: a' else (k', t') :: assign a' k t
  end.

Definition set_prop (a : record) (k : string) (t : tally) : record :=
  if String.eqb k "__proto__" then a else assign a k t.

(** [(a[k] || 0) + count]: an own number is added to; an own text, or a
    function or object found on the prototype, is truthy and turns the sum
    into a text. *)
Definition bumped (a : record) (k : string) (count : nat) : tally :=
  match own a k with
  | Some (Count n) => Count ((if n =? 0 then 0 else n) + count)
  | Some Text => Text
  | None => if inherited k then Text else Count (0 + count)
  end.

(** [t > 1]: a text that is no numeral compares as NaN. *)
Definition exceeds_one (t : option tally) : bool :=
  match t with
  | Some (Count n) => bool_decide (1 < n)
  | _ => false
  end.

(** [Object.keys(a)]: array indices in ascending order, then the other keys
    in insertion order. *)
Definition Object_keys (a : record) : list string :=
  let keys := a.*1 in
  (index_key <$> merge_sort N.le (omap array_index keys))
    ++ List.filter (λ k, bool_decide (array_index k = None)) keys.

(** ** Promise.all *)

Fixpoint all_filled (values : list (option value)) : option (list value) :=
  match values with
  | [] => Some []
  | Some v :: values' => cons v <$> all_filled values'
  | None :: _ => None
  end.

(** The promises settle in the order [order] lists their positions.  Each
    fulfilment stores its value at its own position; the first rejection
    rejects the whole; the result resolves once every position is filled. *)
Fixpoint settle (order : list nat) (promises : list (completion value))
    (values : list (option value)) : completion (list value) :=
  match order with
  | [] => Unfinished
  | i :: order' =>
      match promises !! i with
      | Some (Normal v) =>
          let values' := <[i := Some v]> values in
          match all_filled values' with
          | Some vs => Normal vs
          | None => settle order' promises values'
          end
      | Some (Throw e) => Throw e
      | Some Unfinished | None => settle order' promises values
      end
  end.

Definition Promise_all (order : list nat) (promises : list (completion value))
    : completion (list value) :=
  match promises with
  | [] => Normal []
  | _ => settle order promises (replicate (length promises) None)
  end.

(** ** combineLayouts *)

Definition conflict_message (duplicates : list string) : string :=
  "Layouts must have unique `name` values to be combinable. Conflicting name(s) found: "
    +:+ String.concat ", " duplicates.

(** The names that the conflict message lists. *)
Definition duplicates (layoutNames : list string) : list string :=
  let uniq := foldl (λ a b, set_prop a b.2 (bumped a b.2 b.1)) []
                    ((λ name, (1, name)) <$> layoutNames) in
  List.filter (λ a, exceeds_one (own uniq a)) (Object_keys uniq).

(** The [getLayout] option of the combined layout. *)
Definition combined_getLayout (layouts : list Layout)
    : element → value → completion element :=
  λ page data,
    pagesCombined ←
      foldr (λ l acc,
               element ← acc;
               let layoutOptions := getOptionsFromLayout l in
               let layoutKey := layoutKey (name layoutOptions) in
               wrapped ← match getLayout layoutOptions with
                         | Some getLayout =>
                             slice ← member data layoutKey;
                             getLayout element slice
                         | None => Normal element
                         end;
               Normal (EFragment [wrapped]))
            (Normal (EFragment [page])) layouts;
    Normal (EFragment [pagesCombined]).

(** The [getData] option of the combined layout.  [settled ctx] is the
    order in which the fetches started for the fetch context [ctx] settle;
    it is the event loop's choice, not the module's. *)
Definition combined_getData (settled : value → list nat) (layouts : list Layout) : fetch :=
  λ ctx,
    results ←
      Promise_all (settled ctx)
        ((λ l,
            let layoutOptions := getOptionsFromLayout l in
            let layoutKey := layoutKey (name layoutOptions) in
            data ← opt_call (getData layoutOptions) ctx;
            Normal (VObj {[ layoutKey := data ?? VNull ]})) <$> layouts);
    Normal (VObj (Object_assign ∅ (List.filter truthy results))).

Definition combineLayouts (settled : value → list nat) (layouts : list Layout)
    : completion Layout :=
  let layoutNames := (λ l, name (getOptionsFromLayout l)) <$> layouts in
  if negb (length (remove_dups layoutNames) =? length layoutNames)
  then
    Throw (createError COMBINED_LAYOUT_NAME_CONFLICT
             {| errorContext := "combineLayouts";
                message := conflict_message (duplicates layoutNames);
                location := None;
                layoutName := None |})
  else
    result ← createLayout
      {| name := "__combined(" +:+ String.concat ";" layoutNames +:+ ")";
         getLayout := Some (combined_getLayout layouts);
         getData := Some (combined_getData settled layouts) |};
    Normal {| __layoutOptions := __layoutOptions result;
              wrapPage := wrapPage result;
              wrapGetStaticProps := wrapGetStaticProps result;
              wrapGetServerSideProps := wrapGetServerSideProps result;
              useData := None |}.

(** ** The root provider *)

Definition RenderLayout : FC AppProps := λ props env,
  let getLayout := default (λ C P _, Normal (jsx C P))
                           (PageWithLayout.getLayout (Component props)) in
  content ← getLayout (PageWithLayout.fn (Component props)) (pageProps props) env;
  Normal (EFragment [content]).

Definition LayoutProvider : FC AppProps := λ props _,
  Normal (EProviderFlag true (jsx RenderLayout props)).

(** ** The page lifecycle around the module *)

(** The use the README describes, with the host framework's part in it:
    at data-fetch time the host calls the wrapped fetch function and takes
    the props of its result; at render time the custom [_app] renders
    [LayoutProvider], at the top of the tree, with the page component and
    these props. *)
Definition host_render (fetcher : fetch) (page : PageWithLayout.t)
    (ctx : value) (r : Router) (fuel : nat) : completion (list dom) :=
  result ← fetcher ctx;
  props ← member result "props";
  render fuel (root_ambient r)
         (jsx LayoutProvider {| Component := page; pageProps := spread props |}).

(** [layout.useData()]; a composite has no such function to call. *)
Definition call_useData (layout : Layout) : Ambient → completion value :=
  default (λ _, Throw (TypeError "useData is not a function")) (useData layout).

(** A page that reads a layout's data with [hook] and shows it. *)
Definition reader (hook : Ambient → completion value) : FC obj := λ _ env,
  data ← hook env;
  Normal (EHost "output" {[ "data" := data ]} []).

(** ** Notions used to state the properties *)

Definition layoutNames (layouts : list Layout) : list string :=
  (λ l, name (getOptionsFromLayout l)) <$> layouts.

(** The error of [combineLayouts] for the given names. *)
Definition name_conflict (names : list string) : exn :=
  createError COMBINED_LAYOUT_NAME_CONFLICT
    {| errorContext := "combineLayouts";
       message := conflict_message (duplicates names);
       location := None;
       layoutName := None |}.

(** The error of reading the identifier [LayoutPageContext]. *)
Definition not_defined : exn := ReferenceError "LayoutPageContext is not defined".

(** The error that [combineLayouts] ends with for constituents of the given
    names. *)
Definition combineLayouts_error (names : list string) : exn :=
  if bool_decide (NoDup names) then not_defined else name_conflict names.

(** How often a name occurs in a list of names. *)
Definition occurrences (k : string) (names : list string) : nat :=
  length (List.filter (String.eqb k) names).

(** What the [uniq] record holds after the names [names] were counted. *)
Definition counted (names : list string) (a : record) : Prop :=
  ∀ k, match own a k with
       | None => inherited k = true ∨ occurrences k names = 0
       | Some (Count n) => inherited k = false ∧ n = occurrences k names ∧ n ≠ 0
       | Some Text => inherited k = true
       end.

(** ** Pages and layout objects used to state the properties *)

(** A page component exported as it is, without [wrapPage]. *)
Definition unwrapped (Page : FC obj) : PageWithLayout.t :=
  {| PageWithLayout.fn := Page; PageWithLayout.getLayout := None |}.

(** A layout object written out by hand around [options], with operations
    that add nothing.  [combineLayouts] reads nothing of a constituent but
    its [__layoutOptions]. *)
Definition handmade (options : CreateLayoutOptions) : Layout :=
  {| __layoutOptions := options;
     wrapPage := unwrapped;
     wrapGetStaticProps := default defaultGetProps;
     wrapGetServerSideProps := default defaultGetProps;
     useData := Some (λ _, Normal VUndefined) |}.

(** The use of a layout function, or of none. *)
Definition opt_wrap (f : option (element → value → completion element))
    (page : element) (data : value) : completion element :=
  match f with
  | Some g => g page data
  | None => Normal page
  end.


(** * Properties *)

(** Closes a decidable goal about concrete data by evaluation. *)
Ltac decide_closed := apply (bool_decide_unpack _); vm_compute; exact I.

(** ** The completion monad *)

Lemma bind_Normal {A B} (a : A) (f : A → completion B) : (Normal a ≫= f) = f a.
Proof. reflexivity. Qed.

Lemma bind_Normal_inv {A B} (c : completion A) (f : A → completion B) (b : B) :
  (c ≫= f) = Normal b → ∃ a, c = Normal a ∧ f a = Normal b.
Proof. destruct c as [a| |]; [eauto | discriminate..]. Qed.

Lemma bind_ret_app_nil (c : completion (list dom)) :
  (ds ← c; ds' ← Normal []; Normal (ds ++ ds')) = c.
Proof. destruct c; cbn; by rewrite ?app_nil_r. Qed.

(** ** Values and keys *)

Lemma coalesce_nullish a b : nullish a = true → a ?? b = b.
Proof. unfold coalesce. by intros ->. Qed.

Lemma coalesce_defined a b : nullish a = false → a ?? b = a.
Proof. unfold coalesce. by intros ->. Qed.

Lemma nullish_coalesce_null a : nullish (a ?? VObj ∅) = false.
Proof. by destruct a. Qed.

Lemma spread_coalesce_empty a : spread (a ?? VObj ∅) = spread a.
Proof. by destruct a. Qed.

Lemma member_defined v k : nullish v = false → member v k = Normal (own_prop v k).
Proof. unfold member. by intros ->. Qed.

Lemma layoutKey_inj n1 n2 : layoutKey n1 = layoutKey n2 → n1 = n2.
Proof. unfold layoutKey. intros H. vm_compute in H. by simplify_eq. Qed.

Lemma layoutKey_head n : ∃ rest, layoutKey n = String "_"%char rest.
Proof. by eexists. Qed.

Lemma array_index_layoutKey n : array_index (layoutKey n) = None.
Proof.
  destruct (layoutKey_head n) as [rest ->].
  unfold array_index. simpl.
  by destruct (NilEmpty.uint_of_string rest).
Qed.

Lemma layoutKey_not_length n : String.eqb (layoutKey n) "length" = false.
Proof. by destruct (layoutKey_head n) as [rest ->]. Qed.

(** Only an object can hold an entry under a layout key. *)
Lemma opt_member_layoutKey v n :
  opt_member v (layoutKey n) =
    match v with
    | VObj m => m !!! layoutKey n
    | _ => VUndefined
    end.
Proof.
  destruct v; try reflexivity; unfold opt_member; cbn;
    by rewrite array_index_layoutKey, layoutKey_not_length.
Qed.

(** ** Rendering *)

Lemma render_EText fuel env s : render fuel env (EText s) = Normal [DText s].
Proof. by destruct fuel. Qed.

Lemma render_EProviderFlag fuel env v e :
  render fuel env (EProviderFlag v e) = render fuel (with_flag v env) e.
Proof. by destruct fuel. Qed.

Lemma render_EProviderData fuel env v e :
  render fuel env (EProviderData v e) = render fuel (with_data v env) e.
Proof. by destruct fuel. Qed.

Lemma render_EComponent fuel env body :
  render (S fuel) env (EComponent body) = (e ← body env; render fuel env e).
Proof. reflexivity. Qed.

Lemma render_EFragment fuel env es :
  render fuel env (EFragment es) = render_all fuel env es.
Proof.
  destruct fuel; cbn; (induction es as [|e es IH]; [done | cbn; by rewrite IH]).
Qed.

Lemma render_EHost fuel env tag attrs es :
  render fuel env (EHost tag attrs es) =
    (kids ← render_all fuel env es; Normal [DElem tag attrs kids]).
Proof.
  rewrite <- render_EFragment. by destruct fuel.
Qed.

Lemma render_all_singleton fuel env e : render_all fuel env [e] = render fuel env e.
Proof. cbn. apply bind_ret_app_nil. Qed.

Create Rewrite HintDb render.
#[global] Hint Rewrite render_EText render_EProviderFlag render_EProviderData
  render_EComponent render_EFragment render_EHost render_all_singleton : render.

(** A fragment around one element renders as the element. *)
Lemma render_fragment_singleton fuel env e :
  render fuel env (EFragment [e]) = render fuel env e.
Proof. by autorewrite with render. Qed.

(** ** Namespacing *)

(** C8: the key of a layout is the prefix ["__layout"], a colon and the
    layout's name; two distinct names have distinct keys, so a value stored
    under one name's key leaves what is read under another name's key as it
    was; and a value stored under a name's key is the value read back under
    that name. *)
Theorem layoutKey_namespacing (n1 n2 : string) (store : obj) (v : value) :
  layoutKey n1 = "__layout" +:+ ":" +:+ n1
  ∧ (n1 ≠ n2 →
       layoutKey n1 ≠ layoutKey n2
       ∧ <[layoutKey n1 := v]> store !!! layoutKey n2 = store !!! layoutKey n2)
  ∧ <[layoutKey n1 := v]> store !!! layoutKey n1 = v.
Proof.
  split; [reflexivity | split].
  - intros Hne.
    assert (layoutKey n1 ≠ layoutKey n2) as Hk by (intros H; by apply Hne, layoutKey_inj).
    split; [done | by rewrite lookup_total_insert_ne].
  - by rewrite lookup_total_insert_eq.
Qed.

Lemma layoutKey_namespacing_witness :
  layoutKey "header" = "__layout:header"
  ∧ layoutKey "header" ≠ layoutKey "footer"
  ∧ <[layoutKey "header" := VNum 1]> ({[ layoutKey "footer" := VNum 2 ]} : obj)
      !!! layoutKey "footer" = VNum 2
  ∧ <[layoutKey "header" := VNum 1]> ({[ layoutKey "footer" := VNum 2 ]} : obj)
      !!! layoutKey "header" = VNum 1.
Proof.
  destruct (layoutKey_namespacing "header" "footer"
              {[ layoutKey "footer" := VNum 2 ]} (VNum 1)) as (Hk & Hne & Hrt).
  destruct Hne as [Hne Hframe]; [discriminate |].
  split; [exact Hk | split; [exact Hne | split; [| exact Hrt]]].
  rewrite Hframe. reflexivity.
Defined.


(** ** The root provider *)

(** Rendering the root provider: the flag is set, the dispatch of the page
    is called, and what it returns is rendered below the flag. *)
Lemma render_LayoutProvider fuel env props :
  render (S (S fuel)) env (jsx LayoutProvider props)
  = (tree ← RenderLayout props (with_flag true env);
     render fuel (with_flag true env) tree).
Proof.
  unfold jsx at 1. rewrite render_EComponent. cbn [LayoutProvider mbind completion_bind].
  rewrite render_EProviderFlag. unfold jsx. by rewrite render_EComponent.
Qed.

(** ** createLayout *)

Lemma identifier_LayoutPageContext : identifier "LayoutPageContext" = Throw not_defined.
Proof. vm_compute. reflexivity. Qed.

(** Whatever the options, [createLayout] ends at line 59, with the
    ReferenceError of the identifier that nothing binds. *)
Lemma createLayout_throws options : createLayout options = Throw not_defined.
Proof. unfold createLayout. by rewrite identifier_LayoutPageContext. Qed.

(** So nothing that starts from the layout object is reached. *)
Lemma createLayout_bind {A} options (k : Layout → completion A) :
  (createLayout options ≫= k) = Throw not_defined.
Proof. by rewrite createLayout_throws. Qed.

(** ** What combineLayouts ends with *)

Lemma remove_dups_length_le (l : list string) : length (remove_dups l) ≤ length l.
Proof.
  induction l as [|x l IH]; cbn; [done |].
  case_decide; cbn; lia.
Qed.

Lemma remove_dups_length_NoDup (l : list string) :
  length (remove_dups l) = length l ↔ NoDup l.
Proof.
  induction l as [|x l IH]; cbn.
  - split; [constructor | done].
  - pose proof (remove_dups_length_le l). rewrite NoDup_cons. case_decide; cbn.
    + split; [lia | tauto].
    + split; [intros ?; split; [done | apply IH; lia] | intros [_ ?%IH]; lia].
Qed.

(** [combineLayouts] throws the name conflict when a name repeats (lines
    188-204); otherwise it goes on to call [createLayout] (line 206), which
    throws. *)
Lemma combineLayouts_cases settled layouts :
  (¬ NoDup (layoutNames layouts)
   ∧ combineLayouts settled layouts = Throw (name_conflict (layoutNames layouts)))
  ∨ (NoDup (layoutNames layouts)
     ∧ combineLayouts settled layouts = Throw not_defined).
Proof.
  unfold combineLayouts. fold (layoutNames layouts).
  destruct (length (remove_dups (layoutNames layouts)) =? length (layoutNames layouts))
    eqn:Hlen; cbn [negb].
  - right. split; [| by rewrite createLayout_bind].
    apply remove_dups_length_NoDup. by apply Nat.eqb_eq.
  - left. split; [|reflexivity].
    rewrite <- remove_dups_length_NoDup. by apply Nat.eqb_neq.
Qed.

Lemma combineLayouts_throws settled layouts :
  combineLayouts settled layouts = Throw (combineLayouts_error (layoutNames layouts)).
Proof.
  unfold combineLayouts_error.
  destruct (combineLayouts_cases settled layouts) as [[Hdup ->]|[Hnd ->]].
  - by rewrite bool_decide_eq_false_2.
  - by rewrite bool_decide_eq_true_2.
Qed.

Lemma combineLayouts_bind {A} settled layouts (k : Layout → completion A) :
  (combineLayouts settled layouts ≫= k)
  = Throw (combineLayouts_error (layoutNames layouts)).
Proof. by rewrite combineLayouts_throws. Qed.

Lemma name_conflict_not_defined names : name_conflict names ≠ not_defined.
Proof. discriminate. Qed.
(** ** The names listed by the conflict message *)

Lemma own_assign a k t k' :
  own (assign a k t) k' = if String.eqb k k' then Some t else own a k'.
Proof.
  induction a as [|[k0 t0] a IH]; cbn.
  - done.
  - destruct (String.eqb_spec k0 k) as [->|Hne]; cbn.
    + by destruct (String.eqb k k').
    + rewrite IH. destruct (String.eqb_spec k0 k') as [->|]; [|done].
      by destruct (String.eqb_spec k k') as [->|].
Qed.

Lemma own_keys a k t : own a k = Some t → k ∈ a.*1.
Proof.
  induction a as [|[k0 t0] a IH]; cbn; [done |].
  destruct (String.eqb_spec k0 k) as [->|_].
  - intros _. apply list_elem_of_here.
  - intros H. apply list_elem_of_further. by apply IH.
Qed.

Lemma array_index_canonical k n : array_index k = Some n → index_key n = k.
Proof.
  unfold array_index. destruct (NilEmpty.uint_of_string k) as [u|]; [|done].
  destruct (String.eqb_spec (index_key (N.of_uint u)) k) as [Heq|]; [|done].
  cbn. case_match; [|done]. by intros [= <-].
Qed.

Lemma elem_of_Object_keys a k : k ∈ Object_keys a ↔ k ∈ a.*1.
Proof.
  unfold Object_keys. rewrite elem_of_app, list_elem_of_fmap. split.
  - intros [(n & -> & Hn)|Hk].
    + rewrite merge_sort_Permutation in Hn.
      apply list_elem_of_omap in Hn as (k0 & Hk0 & Hidx).
      by rewrite (array_index_canonical _ _ Hidx).
    + apply list_elem_of_In, filter_In in Hk as [Hk _]. by apply list_elem_of_In.
  - intros Hk. destruct (array_index k) as [n|] eqn:Hidx.
    + left. exists n. split; [by rewrite (array_index_canonical _ _ Hidx) |].
      rewrite merge_sort_Permutation. apply list_elem_of_omap. by exists k.
    + right. apply list_elem_of_In, filter_In. split; [by apply list_elem_of_In |].
      by apply bool_decide_eq_true.
Qed.

Lemma occurrences_snoc k names x :
  occurrences k (names ++ [x])
  = occurrences k names + (if String.eqb k x then 1 else 0).
Proof.
  unfold occurrences. rewrite List.filter_app, length_app. cbn.
  by destruct (String.eqb k x).
Qed.

Lemma counted_step names a x :
  counted names a → counted (names ++ [x]) (set_prop a x (bumped a x 1)).
Proof.
  intros Hinv k. pose proof (Hinv k) as Hk. pose proof (Hinv x) as Hx.
  rewrite occurrences_snoc. unfold set_prop, bumped.
  destruct (String.eqb_spec x "__proto__") as [->|Hproto].
  - destruct (String.eqb_spec k "__proto__") as [->|_].
    + destruct (own a "__proto__") as [[n|]|]; [by destruct Hk | done | by left].
    + by rewrite Nat.add_0_r.
  - rewrite own_assign. destruct (String.eqb_spec x k) as [->|Hne].
    + rewrite String.eqb_refl.
      destruct (own a k) as [[n|]|].
      * destruct Hk as (Hi & -> & Hn). rewrite <- Nat.eqb_neq in Hn. rewrite Hn.
        split; [done |]. split; lia.
      * done.
      * destruct (inherited k) eqn:Hi; [done |].
        destruct Hk as [|Hk]; [done |]. rewrite Hk. split; [done |]. split; cbn; lia.
    + destruct (String.eqb_spec k x) as [->|_]; [done |].
      by rewrite Nat.add_0_r.
Qed.

Lemma counted_foldl names :
  counted names (foldl (λ a b, set_prop a b.2 (bumped a b.2 b.1)) []
                       ((λ name, (1, name)) <$> names)).
Proof.
  induction names as [|x names IH] using rev_ind.
  - intros k. cbn. by right.
  - rewrite fmap_app, foldl_app. cbn. by apply counted_step.
Qed.

(** The conflict message lists exactly the names that occur more than once
    and are no property of [Object.prototype]. *)
Lemma elem_of_duplicates names k :
  k ∈ duplicates names ↔ inherited k = false ∧ 1 < occurrences k names.
Proof.
  unfold duplicates. pose proof (counted_foldl names k) as Hk.
  set (uniq := foldl _ _ _) in *.
  rewrite list_elem_of_In, filter_In, <- list_elem_of_In, elem_of_Object_keys.
  unfold exceeds_one. split.
  - intros [_ Hone]. destruct (own uniq k) as [[n|]|]; [|done..].
    destruct Hk as (Hi & -> & _). apply bool_decide_eq_true in Hone. done.
  - intros [Hi Hocc]. destruct (own uniq k) as [[n|]|] eqn:Hown.
    + destruct Hk as (_ & -> & _). split; [by eapply own_keys |].
      by apply bool_decide_eq_true.
    + congruence.
    + destruct Hk as [|Hk]; [congruence | lia].
Qed.

Lemma occurrences_cons k x names :
  occurrences k (x :: names) = (if String.eqb k x then 1 else 0) + occurrences k names.
Proof. unfold occurrences. cbn. by destruct (String.eqb k x). Qed.

Lemma occurrences_not_elem k names : k ∉ names → occurrences k names = 0.
Proof.
  induction names as [|x names IH]; [done |].
  rewrite not_elem_of_cons, occurrences_cons. intros [Hne Hk].
  destruct (String.eqb_spec k x); [done |]. by rewrite IH.
Qed.

Lemma occurrences_NoDup k names : NoDup names → occurrences k names ≤ 1.
Proof.
  induction 1 as [|x names Hx _ IH]; [cbn; lia |].
  rewrite occurrences_cons. destruct (String.eqb_spec k x) as [->|_]; [|done].
  rewrite occurrences_not_elem by done. lia.
Qed.
Lemma assign_keys a k t :
  (assign a k t).*1 = if bool_decide (k ∈ a.*1) then a.*1 else a.*1 ++ [k].
Proof.
  induction a as [|[k0 t0] a IH]; cbn; [done |].
  destruct (String.eqb_spec k0 k) as [->|Hne]; cbn.
  - rewrite bool_decide_eq_true_2; [done | apply list_elem_of_here].
  - rewrite IH. destruct (decide (k ∈ a.*1)) as [Hin|Hin].
    + rewrite !bool_decide_eq_true_2; [done | by apply list_elem_of_further | done].
    + rewrite !bool_decide_eq_false_2; [done | | done].
      apply not_elem_of_cons. split; [done | done].
Qed.

Lemma assign_NoDup a k t : NoDup a.*1 → NoDup (assign a k t).*1.
Proof.
  intros Hnd. rewrite assign_keys. case_bool_decide; [done |].
  apply NoDup_app. split; [done |].
  split; [| apply NoDup_singleton].
  intros x Hx Hk. apply list_elem_of_singleton in Hk as ->. done.
Qed.

Lemma counting_NoDup (pairs : list (nat * string)) (a : record) :
  NoDup a.*1 →
  NoDup (foldl (λ a b, set_prop a b.2 (bumped a b.2 b.1)) a pairs).*1.
Proof.
  revert a. induction pairs as [|b pairs IH]; intros a Hnd; cbn; [done |].
  apply IH. unfold set_prop. destruct (String.eqb b.2 "__proto__"); [done |].
  by apply assign_NoDup.
Qed.

Lemma omap_array_index_NoDup (keys : list string) :
  NoDup keys → NoDup (omap array_index keys).
Proof.
  induction 1 as [|k keys Hk _ IH]; cbn; [constructor |].
  destruct (array_index k) as [n|] eqn:Hn; [|done].
  apply NoDup_cons. split; [|done].
  intros Hin. apply list_elem_of_omap in Hin as (k' & Hk' & Hn').
  apply array_index_canonical in Hn, Hn'. congruence.
Qed.

Lemma Object_keys_NoDup (a : record) : NoDup a.*1 → NoDup (Object_keys a).
Proof.
  intros Hnd. unfold Object_keys. apply NoDup_app. split; [| split].
  - apply NoDup_fmap_2_strong.
    + intros n1 n2 H1 H2 Heq.
      rewrite merge_sort_Permutation in H1, H2.
      apply list_elem_of_omap in H1 as (k1 & _ & H1), H2 as (k2 & _ & H2).
      pose proof (array_index_canonical _ _ H1). pose proof (array_index_canonical _ _ H2).
      congruence.
    + rewrite merge_sort_Permutation. by apply omap_array_index_NoDup.
  - intros k Hk Hk'. apply list_elem_of_fmap in Hk as (n & -> & Hn).
    rewrite merge_sort_Permutation in Hn.
    apply list_elem_of_omap in Hn as (k0 & _ & Hn).
    apply list_elem_of_In, filter_In in Hk' as [_ Hnone].
    apply bool_decide_eq_true in Hnone.
    rewrite (array_index_canonical _ _ Hn) in Hnone. congruence.
  - apply NoDup_ListNoDup, List.NoDup_filter, NoDup_ListNoDup. done.
Qed.

(** The names that the conflict message lists are exactly the names that
    occur more than once and are no property of [Object.prototype], and
    each of them is listed once. *)
Theorem conflict_message_names (names : list string) (k : string) :
  NoDup (duplicates names)
  ∧ (k ∈ duplicates names ↔ inherited k = false ∧ 1 < occurrences k names).
Proof.
  split; [| apply elem_of_duplicates].
  unfold duplicates.
  apply NoDup_ListNoDup, List.NoDup_filter, NoDup_ListNoDup.
  apply Object_keys_NoDup. by apply (counting_NoDup _ []), NoDup_nil.
Qed.

(** ** The fetch wrappers *)

(** C1 is not what the code does: for no options, base fetch function and
    fetch context does a fetch-wrapping operation return a props object.
    [createLayout] throws the ReferenceError of line 59 before the layout
    object with [wrapGetStaticProps] and [wrapGetServerSideProps] exists,
    so making the wrapped function ends with that error, and so does
    calling it. *)
Theorem createLayout_throws_before_fetch_wrapper
    (options : CreateLayoutOptions) (wrapped : option fetch) (ctx : value) :
  (layout ← createLayout options; Normal (wrapGetStaticProps layout wrapped))
  = Throw not_defined
  ∧ (layout ← createLayout options; Normal (wrapGetServerSideProps layout wrapped))
    = Throw not_defined
  ∧ (layout ← createLayout options; wrapGetStaticProps layout wrapped ctx)
    = Throw not_defined
  ∧ (layout ← createLayout options; wrapGetServerSideProps layout wrapped ctx)
    = Throw not_defined.
Proof. repeat split; apply createLayout_bind. Qed.


(** ** wrapPage, the render dispatch and useData *)

(** C6 is not what the code does: no component is produced by a layout's
    [wrapPage].  [createLayout] throws the ReferenceError of line 59, so
    wrapping a page ends with that error, whether the wrapped page would be
    called directly or rendered by the root provider: there is neither the
    LAYOUT_PROVIDER_NOT_IMPLEMENTED error nor the rendered page. *)
Theorem createLayout_throws_before_wrapPage
    (options : CreateLayoutOptions) (Page : FC obj) (props : obj) (env : Ambient)
    (fuel : nat) :
  (layout ← createLayout options; Normal (wrapPage layout Page)) = Throw not_defined
  ∧ (layout ← createLayout options;
     PageWithLayout.fn (wrapPage layout Page) props env)
    = Throw not_defined
  ∧ (layout ← createLayout options;
     render fuel env
            (jsx LayoutProvider {| Component := wrapPage layout Page; pageProps := props |}))
    = Throw not_defined.
Proof. repeat split; apply createLayout_bind. Qed.


(** C5 is not what the code does: [useData] of a layout is never reached.
    [createLayout] throws the ReferenceError of line 59, so there is no
    layout whose [useData] could throw DATA_UNAVAILABLE or return the
    fetched value: reading the data in any environment, and the whole
    lifecycle of a page that is wrapped, fetched with the wrapped fetch
    function and rendered below the root provider, end with that error. *)
Theorem createLayout_throws_before_useData
    (options : CreateLayoutOptions) (wrapped : option fetch) (ctx : value)
    (env : Ambient) (r : Router) (fuel : nat) :
  (layout ← createLayout options; call_useData layout env) = Throw not_defined
  ∧ (layout ← createLayout options;
     host_render (wrapGetStaticProps layout wrapped)
                 (wrapPage layout (reader (call_useData layout))) ctx r fuel)
    = Throw not_defined.
Proof. split; apply createLayout_bind. Qed.

(** C10 is not what the code does: a layout whose name starts with
    ["__combined"] is not created, so its [useData] throws nothing.
    [createLayout] computes [isCombinedLayout] as true for the name (line
    55) and then throws the ReferenceError of line 59; the lifecycle of a
    page of that layout ends with the ReferenceError, not with
    DATA_UNAVAILABLE. *)
Theorem createLayout_throws_for_combined_prefix
    (suffix : string) (getLayout : option (element → value → completion element))
    (getData wrapped : option fetch) (ctx : value) (r : Router) (fuel : nat) :
  let options := {| name := "__combined" +:+ suffix;
                    getLayout := getLayout; getData := getData |} in
  isCombinedLayout (name options) = true
  ∧ createLayout options = Throw not_defined
  ∧ (layout ← createLayout options;
     host_render (wrapGetServerSideProps layout wrapped)
                 (wrapPage layout (reader (call_useData layout))) ctx r fuel)
    = Throw not_defined.
Proof.
  intros options. split; [subst options; destruct suffix; vm_compute; reflexivity |].
  split; [apply createLayout_throws | apply createLayout_bind].
Qed.

(** ** Composites *)

(** C2 is not what the code does: the fetch of a composite is never
    reached.  For constituents with pairwise different names
    [combineLayouts] calls [createLayout] (line 206), which throws the
    ReferenceError of line 59, and for a repeated name it throws the name
    conflict; either way no composite is returned whose fetch could return
    the union.  With constituents that are themselves made by
    [createLayout], the first of them already throws. *)
Theorem combineLayouts_throws_before_getData
    (settled : value → list nat) (layouts : list Layout)
    (first second : CreateLayoutOptions) (ctx : value) :
  (composite ← combineLayouts settled layouts;
   opt_call (getData (getOptionsFromLayout composite)) ctx)
  = Throw (combineLayouts_error (layoutNames layouts))
  ∧ (L1 ← createLayout first;
     L2 ← createLayout second;
     composite ← combineLayouts settled [L1; L2];
     opt_call (getData (getOptionsFromLayout composite)) ctx)
    = Throw not_defined.
Proof. split; [apply combineLayouts_bind | apply createLayout_bind]. Qed.

(** C3 is not what the code does: the layout function of a composite is
    never reached.  [combineLayouts] returns no composite, for pairwise
    different names because its call of [createLayout] (line 206) throws
    the ReferenceError of line 59, so no tree with the first layout
    outermost is made of any page; with constituents that are themselves
    made by [createLayout], the first of them already throws. *)
Theorem combineLayouts_throws_before_getLayout
    (settled : value → list nat) (layouts : list Layout)
    (first second : CreateLayoutOptions) (page : element) (data : value) :
  (composite ← combineLayouts settled layouts;
   opt_wrap (getLayout (getOptionsFromLayout composite)) page data)
  = Throw (combineLayouts_error (layoutNames layouts))
  ∧ (L1 ← createLayout first;
     L2 ← createLayout second;
     composite ← combineLayouts settled [L1; L2];
     opt_wrap (getLayout (getOptionsFromLayout composite)) page data)
    = Throw not_defined.
Proof. split; [apply combineLayouts_bind | apply createLayout_bind]. Qed.

(** ** Name conflicts *)

(** C4 fails on the code for names that [Object.prototype] defines: for any
    two layout objects both named ["constructor"], [combineLayouts] throws
    COMBINED_LAYOUT_NAME_CONFLICT, but the count kept under that name is no
    number and the message lists no name at all. *)
Theorem combineLayouts_conflict_message_misses_name
    (settled : value → list nat) (first second : Layout) :
  name (getOptionsFromLayout first) = "constructor" →
  name (getOptionsFromLayout second) = "constructor" →
  occurrences "constructor" (layoutNames [first; second]) = 2
  ∧ duplicates (layoutNames [first; second]) = []
  ∧ combineLayouts settled [first; second]
    = Throw (createError COMBINED_LAYOUT_NAME_CONFLICT
               {| errorContext := "combineLayouts";
                  message := "Layouts must have unique `name` values to be combinable. Conflicting name(s) found: ";
                  location := None;
                  layoutName := None |}).
Proof.
  intros Hfirst Hsecond.
  assert (layoutNames [first; second] = ["constructor"; "constructor"]) as Hnames
    by (unfold layoutNames; cbn; by rewrite Hfirst, Hsecond).
  rewrite Hnames. split; [reflexivity | split; [reflexivity |]].
  destruct (combineLayouts_cases settled [first; second]) as [[_ ->]|[Hnd _]].
  - rewrite Hnames. reflexivity.
  - rewrite Hnames in Hnd. apply NoDup_cons in Hnd as [Hin _].
    exfalso. apply Hin. apply list_elem_of_here.
Qed.

Lemma combineLayouts_conflict_message_misses_name_witness :
  let first := handmade {| name := "constructor"; getLayout := None; getData := None |} in
  let second := handmade {| name := "constructor"; getLayout := None;
                            getData := Some (λ _, Normal (VNum 1)) |} in
  duplicates (layoutNames [first; second]) = []
  ∧ combineLayouts (λ _, [0; 1]) [first; second]
    = Throw (createError COMBINED_LAYOUT_NAME_CONFLICT
               {| errorContext := "combineLayouts";
                  message := "Layouts must have unique `name` values to be combinable. Conflicting name(s) found: ";
                  location := None;
                  layoutName := None |}).
Proof.
  intros first second.
  destruct (combineLayouts_conflict_message_misses_name (λ _, [0; 1]) first second
              eq_refl eq_refl) as (_ & Hdup & Hthrow).
  split; [exact Hdup | exact Hthrow].
Defined.

(** [combineLayouts] returns no layout.  It throws
    COMBINED_LAYOUT_NAME_CONFLICT exactly when a name repeats, and the
    ReferenceError of line 59, from its call of [createLayout], exactly
    when the names are pairwise different; what it throws depends on the
    names of the constituents alone, not on their layout functions, their
    fetches or the order of settlement. *)
Theorem combineLayouts_never_returns
    (settled settled' : value → list nat) (layouts layouts' : list Layout) :
  let names := layoutNames layouts in
  (∀ L, combineLayouts settled layouts ≠ Normal L)
  ∧ (¬ NoDup names ↔ combineLayouts settled layouts = Throw (name_conflict names))
  ∧ (NoDup names ↔ combineLayouts settled layouts = Throw not_defined)
  ∧ (layoutNames layouts' = names →
     combineLayouts settled' layouts' = combineLayouts settled layouts).
Proof.
  intros names. subst names. split; [| split; [| split]].
  - intros L. by rewrite combineLayouts_throws.
  - destruct (combineLayouts_cases settled layouts) as [[Hdup ->]|[Hnd ->]].
    + by split.
    + split; [done | intros [= H]; by destruct (name_conflict_not_defined _)].
  - destruct (combineLayouts_cases settled layouts) as [[Hdup ->]|[Hnd ->]].
    + split; [done | intros [= H]; by destruct (name_conflict_not_defined (layoutNames layouts))].
    + by split.
  - intros Hnames. by rewrite !combineLayouts_throws, Hnames.
Qed.

Lemma combineLayouts_never_returns_witness :
  let a := handmade {| name := "a"; getLayout := None; getData := None |} in
  let a' := handmade {| name := "a"; getLayout := None;
                        getData := Some (λ _, Normal (VNum 1)) |} in
  let b := handmade {| name := "b"; getLayout := None; getData := None |} in
  combineLayouts (λ _, [1; 0]) [a'; a] = Throw (name_conflict ["a"; "a"])
  ∧ combineLayouts (λ _, [0; 1]) [a; b] = Throw not_defined.
Proof.
  intros a a' b. split.
  - destruct (combineLayouts_never_returns (λ _, [0; 1]) (λ _, [1; 0]) [a; a] [a'; a])
      as (_ & [Hthrow _] & _ & Hnames).
    rewrite (Hnames eq_refl). apply Hthrow.
    intros Hnd. apply NoDup_cons in Hnd as [Hin _]. apply Hin. apply list_elem_of_here.
  - destruct (combineLayouts_never_returns (λ _, [0; 1]) (λ _, [0; 1]) [a; b] [a; b])
      as (_ & _ & [Hthrow _] & _).
    apply Hthrow. decide_closed.
Defined.

(** ** Pages without a layout *)

(** [LayoutProvider] sets the flag and hands the page and its props to the
    dispatch that the page carries, which runs below the flag and whose
    result is rendered below it; a page that carries none, exported as it
    is without [wrapPage], is rendered as the component itself with all
    its props, below the flag and with the data context left as it was. *)
Theorem LayoutProvider_dispatch
    (page : PageWithLayout.t) (Page : FC obj) (props : obj) (env : Ambient) (fuel : nat) :
  render (S (S fuel)) env (jsx LayoutProvider {| Component := page; pageProps := props |})
  = (content ← default (λ C P _, Normal (jsx C P)) (PageWithLayout.getLayout page)
               (PageWithLayout.fn page) props (with_flag true env);
     render fuel (with_flag true env) content)
  ∧ render (S (S fuel)) env
           (jsx LayoutProvider {| Component := unwrapped Page; pageProps := props |})
    = render fuel (with_flag true env) (jsx Page props)
  ∧ LayoutProviderContext (with_flag true env) = true
  ∧ LayoutDataContext (with_flag true env) = LayoutDataContext env.
Proof.
  assert (∀ p,
            render (S (S fuel)) env
                   (jsx LayoutProvider {| Component := p; pageProps := props |})
            = (content ← default (λ C P _, Normal (jsx C P)) (PageWithLayout.getLayout p)
                         (PageWithLayout.fn p) props (with_flag true env);
               render fuel (with_flag true env) content)) as Hdispatch.
  { intros p. rewrite render_LayoutProvider.
    unfold RenderLayout. cbn [Component pageProps].
    destruct (default _ _ _ _ _) as [content| |]; cbn [mbind completion_bind];
      [apply render_fragment_singleton | reflexivity..]. }
  split; [apply Hdispatch |]. split; [| done].
  rewrite Hdispatch. reflexivity.
Qed.
